(** * create-users2.py: batch user provisioning with a dry-run mode

    A shallow embedding of [src/create-users2.py] and the properties of its
    line classification, of the three commands it builds for a record and of
    the dry-run / live duality.

    Text.  A Python [str] is modelled as a Rocq [string]; an [ascii] stands
    for the code point of that number, so the alphabet of the model is
    U+0000..U+00FF.  [str.upper] can leave that range, its result is a list
    of code points.

    Effects.  The script talks to the world through [print], [os.system],
    one [readline] on /dev/tty and the iteration over [sys.stdin].  Each of
    them is recorded as an [event]; a computation is a trace of events
    together with its outcome, a value or a raised exception.  [os.system]
    is the external command runner: the model records the call with the
    command handed to it and discards the status, as the script does; the
    call raises [ValueError] on a command that holds U+0000, and the script
    catches nothing.  /dev/tty is opened as a text file with universal
    newlines, [sys.stdin] ends its lines at line feeds only. *)

From Stdlib Require Import Bool Arith List Ascii String NArith Lia.
Import ListNotations.
Open Scope list_scope.
Open Scope string_scope.

(** ** Python's string methods used by the script *)

Module Py.

Definition LF : ascii := "010"%char.
Definition CR : ascii := "013"%char.
Definition NUL : ascii := "000"%char.

(** The one-character string [chr(10)], written ["\n"] in the source. *)
Definition nl : string := String LF EmptyString.

(** [str.isspace] on the code points below 256. *)
Definition isspace (c : ascii) : bool :=
  let n := nat_of_ascii c in
  ((9 <=? n)%nat && (n <=? 13)%nat) || ((28 <=? n)%nat && (n <=? 32)%nat)
  || (n =? 133)%nat || (n =? 160)%nat.

(** Dropping a leading, respectively trailing, run of characters. *)
Fixpoint lstrip_by (p : ascii -> bool) (s : string) : string :=
  match s with
  | EmptyString => EmptyString
  | String c s' => if p c then lstrip_by p s' else s
  end.

Fixpoint rstrip_by (p : ascii -> bool) (s : string) : string :=
  match s with
  | EmptyString => EmptyString
  | String c s' =>
      match rstrip_by p s' with
      | EmptyString => if p c then EmptyString else String c EmptyString
      | r => String c r
      end
  end.

(** [s.strip()] *)
Definition strip (s : string) : string :=
  lstrip_by isspace (rstrip_by isspace s).

Fixpoint mem_char (c : ascii) (chars : string) : bool :=
  match chars with
  | EmptyString => false
  | String d chars' => Ascii.eqb c d || mem_char c chars'
  end.

(** [s.rstrip(chars)] *)
Definition rstrip (chars s : string) : string :=
  rstrip_by (fun c => mem_char c chars) s.

(** [s.split(sep)] for a separator of one character. *)
Fixpoint split (sep : ascii) (s : string) : list string :=
  match s with
  | EmptyString => [EmptyString]
  | String c s' =>
      if Ascii.eqb c sep then EmptyString :: split sep s'
      else match split sep s' with
           | [] => [String c EmptyString]
           | f :: fs => String c f :: fs
           end
  end.

(** [re.match("^#", s)], as the truth value of the match object. *)
Definition re_match_hash (s : string) : bool :=
  match s with
  | String c _ => Ascii.eqb c "#"
  | EmptyString => false
  end.

(** The code points of [chr(n).upper()] for [n < 256]. *)
Definition upper_cp (c : ascii) : list N :=
  let n := N_of_ascii c in
  if (97 <=? n)%N && (n <=? 122)%N then [(n - 32)%N]
  else if (n =? 181)%N then [924%N]
  else if (n =? 223)%N then [83%N; 83%N]
  else if (n =? 247)%N then [n]
  else if (n =? 255)%N then [376%N]
  else if (224 <=? n)%N && (n <=? 254)%N then [(n - 32)%N]
  else [n].

Fixpoint upper (s : string) : list N :=
  match s with
  | EmptyString => []
  | String c s' => (upper_cp c ++ upper s')%list
  end.

(** The code points of a string that is not changed. *)
Fixpoint code_points (s : string) : list N :=
  match s with
  | EmptyString => []
  | String c s' => N_of_ascii c :: code_points s'
  end.

Fixpoint text_eqb (a b : list N) : bool :=
  match a, b with
  | [], [] => true
  | x :: a', y :: b' => (x =? y)%N && text_eqb a' b'
  | _, _ => false
  end.

(** [f.readline()] on a text file opened by [open(name)], so with universal
    newlines, whose unread content is [s]: the text before the first line
    end (LF, CR or CR LF) with one line feed in its place, or all of [s]
    when it has no line end. *)
Fixpoint readline (s : string) : string :=
  match s with
  | EmptyString => EmptyString
  | String c s' =>
      if Ascii.eqb c LF || Ascii.eqb c CR then nl else String c (readline s')
  end.

(** The lines that iterating over [sys.stdin] of content [s] yields: a line
    ends at a line feed and keeps it, the last one may lack it. *)
Fixpoint file_lines (s : string) : list string :=
  match s with
  | EmptyString => []
  | String c s' =>
      if Ascii.eqb c LF then String c EmptyString :: file_lines s'
      else match file_lines s' with
           | [] => [String c EmptyString]
           | l :: ls => String c l :: ls
           end
  end.

End Py.

(** ** Events, traces and the monad of the script *)

Inductive event : Type :=
| Printed (s end_ : string)        (* print(s, end=end_) *)
| System (cmd : string)          (* os.system(cmd) was called *)
| TtyReadline (line : string)    (* tty.readline() returned line *)
| StdinNext (line : string).     (* the for loop took line from sys.stdin *)

Inductive exn : Type :=
| OSError       (* open('/dev/tty') failed *)
| IndexError    (* a list index out of range *)
| ValueError.   (* os.system on a command with an embedded null *)

(** A computation: what it did, and how it ended. *)
Definition M (A : Type) : Type := (list event * (exn + A))%type.

Definition ret {A} (a : A) : M A := ([], inr a).

Definition raise {A} (e : exn) : M A := ([], inl e).

Definition bind {A B} (m : M A) (k : A -> M B) : M B :=
  match m with
  | (t, inl e) => (t, inl e)
  | (t, inr a) => let (t', r) := k a in ((t ++ t')%list, r)
  end.

Notation "x <- m ;; k" := (bind m (fun x => k))
  (at level 61, m at next level, right associativity).
Notation "m ;; k" := (bind m (fun _ => k))
  (at level 61, right associativity).

Definition emit (e : event) : M unit := ([e], inr tt).

Definition trace {A} (m : M A) : list event := fst m.
Definition outcome {A} (m : M A) : exn + A := snd m.

(** [print(s)] and [print(s, end='')] *)
Definition print (s : string) : M unit := emit (Printed s Py.nl).
Definition print_end (s end_ : string) : M unit := emit (Printed s end_).

(** Whether a string holds U+0000. *)
Fixpoint has_nul (s : string) : bool :=
  match s with
  | EmptyString => false
  | String c s' => Ascii.eqb c Py.NUL || has_nul s'
  end.

(** [os.system(cmd)], its status discarded: the call raises [ValueError]
    without running anything when [cmd] holds U+0000. *)
Definition os_system (cmd : string) : M unit :=
  emit (System cmd) ;;
  if has_nul cmd then raise ValueError else ret tt.

(** [xs[i]] *)
Definition index (xs : list string) (i : nat) : M string :=
  match nth_error xs i with
  | Some x => ret x
  | None => raise IndexError
  end.

(** [for x in xs: f x] *)
Fixpoint for_each {A} (xs : list A) (f : A -> M unit) : M unit :=
  match xs with
  | [] => ret tt
  | x :: xs' => f x ;; for_each xs' f
  end.

(** ** The script *)

Definition would_run : string := "DRY-RUN: would run: ".

(** The body of the loop over [sys.stdin], lines 37 to 116; [continue] ends
    the body. *)
Definition body (dry_run : bool) (line : string) : M unit :=
  let raw_line := Py.rstrip Py.nl line in
  let match_ := Py.re_match_hash line in
  let fields := Py.split ":" (Py.strip line) in
  if match_ then
    if dry_run then print ("SKIP (comment line): " ++ raw_line) else ret tt
  else if negb (List.length fields =? 5)%nat then
    if dry_run
    then print ("ERROR (dry-run): Not enough fields in line: " ++ raw_line)
    else ret tt
  else
    username <- index fields 0 ;;
    password <- index fields 1 ;;
    first <- index fields 3 ;;
    last <- index fields 2 ;;
    let gecos := first ++ " " ++ last ++ ",,," in
    field4 <- index fields 4 ;;
    let groups := Py.split "," field4 in
    print ("==> Creating account for " ++ username ++ "...") ;;
    let create_cmd := "/usr/sbin/useradd -m -c '" ++ gecos ++ "' " ++ username in
    (if dry_run then print (would_run ++ create_cmd)
     else print create_cmd ;; os_system create_cmd) ;;
    print ("==> Setting the password for " ++ username ++ "...") ;;
    let passwd_cmd :=
      "/bin/echo -ne '" ++ password ++ Py.nl ++ password
      ++ "' | /usr/bin/sudo /usr/bin/passwd " ++ username in
    (if dry_run then print (would_run ++ passwd_cmd)
     else print passwd_cmd ;; os_system passwd_cmd) ;;
    for_each groups (fun group =>
      if negb (String.eqb group "-") then
        print ("==> Assigning " ++ username ++ " to the " ++ group ++ " group...") ;;
        let group_cmd := "/usr/sbin/adduser " ++ username ++ " " ++ group in
        if dry_run then print (would_run ++ group_cmd)
        else print group_cmd ;; os_system group_cmd
      else ret tt).

(** The loop over [sys.stdin], line 36. *)
Definition process (dry_run : bool) (lines : list string) : M unit :=
  for_each lines (fun line => emit (StdinNext line) ;; body dry_run line).

(** [main()]: [tty] is the unread content of /dev/tty, [None] when the
    device cannot be opened; [stdin] is the content of standard input. *)
Definition main (tty : option string) (stdin : string) : M unit :=
  match tty with
  | None => raise OSError
  | Some dev =>
      print_end "Run in dry-run mode? (Y/N): " EmptyString ;;
      answer <- (let l := Py.readline dev in emit (TtyReadline l) ;; ret l) ;;
      let mode := Py.upper (Py.strip answer) in
      let dry_run := Py.text_eqb mode (Py.code_points "Y") in
      process dry_run (Py.file_lines stdin)
  end.

(** ** Reading a trace *)

(** The commands handed to [os.system], call by call. *)
Fixpoint executed (t : list event) : list string :=
  match t with
  | [] => []
  | System cmd :: t' => cmd :: executed t'
  | _ :: t' => executed t'
  end.

(** [after_prefix p s] is what follows [p] in [s], when [s] starts with [p]. *)
Fixpoint after_prefix (p s : string) : option string :=
  match p, s with
  | EmptyString, _ => Some s
  | String a p', String b s' =>
      if Ascii.eqb a b then after_prefix p' s' else None
  | String _ _, EmptyString => None
  end.

(** The commands printed behind the "would run" marker, in order. *)
Fixpoint described (t : list event) : list string :=
  match t with
  | [] => []
  | Printed s _ :: t' =>
      match after_prefix would_run s with
      | Some cmd => cmd :: described t'
      | None => described t'
      end
  | _ :: t' => described t'
  end.

(** The commands of a run: described in a dry run, executed in a live one. *)
Definition commands (dry_run : bool) (t : list event) : list string :=
  if dry_run then described t else executed t.

(** ** The three ways through the body *)

Record AccountRecord : Type := {
  username : string;
  password : string;
  lastName : string;
  firstName : string;
  groupList : list string
}.

Inductive classification : Type :=
| Comment
| Malformed
| Valid (r : AccountRecord).

(** The guards of lines 48 and 55, and the fields read at lines 62 to 67. *)
Definition classify (line : string) : classification :=
  if Py.re_match_hash line then Comment
  else match Py.split ":" (Py.strip line) with
       | [f0; f1; f2; f3; f4] =>
           Valid {| username := f0; password := f1; lastName := f2;
                    firstName := f3; groupList := Py.split "," f4 |}
       | _ => Malformed
       end.


Definition not_dash (group : string) : bool := negb (String.eqb group "-").


(** The first non-whitespace character of a line, the test of a comment in
    the words of the data model (section 3 of the specification). *)
Definition first_non_whitespace (line : string) : option ascii :=
  match Py.lstrip_by Py.isspace line with
  | String c _ => Some c
  | EmptyString => None
  end.

(** The mode that an answer on the terminal selects, lines 32 and 34. *)
Definition dry_run_of (answer : string) : bool :=
  Py.text_eqb (Py.upper (Py.strip answer)) (Py.code_points "Y").

(** The three ways, as conditions on the line. *)
Variant line_shape (line : string) : Prop :=
| IsComment :
    Py.re_match_hash line = true -> line_shape line
| IsMalformed :
    Py.re_match_hash line = false ->
    List.length (Py.split ":" (Py.strip line)) <> 5 -> line_shape line
| IsValid (u p l f g : string) :
    Py.re_match_hash line = false ->
    Py.split ":" (Py.strip line) = [u; p; l; f; g] -> line_shape line.

(** How often the terminal was read. *)
Fixpoint tty_reads (t : list event) : nat :=
  match t with
  | [] => 0
  | TtyReadline _ :: t' => S (tty_reads t')
  | _ :: t' => tty_reads t'
  end.

(** A line with white space before its [#], from the input file of a run. *)
Definition indented_comment : string :=
  "  #bob:pw:Lee:Bob:staff" ++ Py.nl.

(** ** Counting, joining and reading back *)

(** [s.count(c)] for a character [c]. *)
Fixpoint count_char (c : ascii) (s : string) : nat :=
  match s with
  | EmptyString => 0
  | String d s' => if Ascii.eqb d c then S (count_char c s') else count_char c s'
  end.

(** [sep.join(xs)] *)
Fixpoint join (sep : string) (xs : list string) : string :=
  match xs with
  | [] => EmptyString
  | x :: xs' =>
      match xs' with
      | [] => x
      | _ :: _ => x ++ sep ++ join sep xs'
      end
  end.

(** The lines that the loop took from standard input, in order. *)
Fixpoint stdin_reads (t : list event) : list string :=
  match t with
  | [] => []
  | StdinNext line :: t' => line :: stdin_reads t'
  | _ :: t' => stdin_reads t'
  end.

(** [echoed_from prev t]: every [os.system] call of [t] comes right after a
    [print] of the same command; [prev] is the text of the print just before
    [t], if the event before [t] is one. *)
Fixpoint echoed_from (prev : option string) (t : list event) : bool :=
  match t with
  | [] => true
  | Printed s _ :: t' => echoed_from (Some s) t'
  | System cmd :: t' =>
      match prev with
      | Some s => String.eqb s cmd
      | None => false
      end && echoed_from None t'
  | _ :: t' => echoed_from None t'
  end.

(** [stops_at_raise t]: a call of [os.system] with a command that holds
    U+0000 is the last event of [t]. *)
Fixpoint stops_at_raise (t : list event) : bool :=
  match t with
  | [] => true
  | System cmd :: t' =>
      if has_nul cmd then match t' with [] => true | _ :: _ => false end
      else stops_at_raise t'
  | _ :: t' => stops_at_raise t'
  end.

(** No command handed to [os.system] holds U+0000. *)
Definition clean (t : list event) : bool :=
  forallb (fun cmd => negb (has_nul cmd)) (executed t).

(** ** A record as a list of steps *)

(** The announcement and the command of each action of a record, in the
    order of lines 70 to 116. *)
Definition steps (u p l f : string) (groups : list string)
  : list (string * string) :=
  ("==> Creating account for " ++ u ++ "...",
   "/usr/sbin/useradd -m -c '" ++ f ++ " " ++ l ++ ",,,' " ++ u)
  :: ("==> Setting the password for " ++ u ++ "...",
      "/bin/echo -ne '" ++ p ++ Py.nl ++ p
      ++ "' | /usr/bin/sudo /usr/bin/passwd " ++ u)
  :: map (fun group =>
            ("==> Assigning " ++ u ++ " to the " ++ group ++ " group...",
             "/usr/sbin/adduser " ++ u ++ " " ++ group))
         (filter not_dash groups).

(** What the script does with a list of steps: in a dry run it prints them
    all; in a live run it stops at the first command on which [os.system]
    raises. *)
Fixpoint run_steps (dry_run : bool) (ss : list (string * string)) : M unit :=
  match ss with
  | [] => ([], inr tt)
  | (a, c) :: ss' =>
      if dry_run then
        (Printed a Py.nl :: Printed (would_run ++ c) Py.nl
         :: trace (run_steps dry_run ss'), outcome (run_steps dry_run ss'))
      else if has_nul c then
        ([Printed a Py.nl; Printed c Py.nl; System c], inl ValueError)
      else
        (Printed a Py.nl :: Printed c Py.nl :: System c
         :: trace (run_steps dry_run ss'), outcome (run_steps dry_run ss'))
  end.

(** The commands up to the first that holds U+0000, that one included. *)
Fixpoint upto_raise (cmds : list string) : list string :=
  match cmds with
  | [] => []
  | c :: cmds' => if has_nul c then [c] else c :: upto_raise cmds'
  end.

(** The events of [print] and [os.system]. *)
Definition output_event (e : event) : bool :=
  match e with
  | Printed _ _ | System _ => true
  | _ => false
  end.

(** A record whose user name holds U+0000, and the same with an empty entry
    at the end of its group list. *)
Definition nul_record : string :=
  "a" ++ String Py.NUL ":pw:L:F:g" ++ Py.nl.


(** ** Lemmas on strings and traces *)

Lemma str_app_assoc (a b c : string) : (a ++ b) ++ c = a ++ (b ++ c).
Proof.
  induction a as [|x a IH]; simpl.
  - reflexivity.
  - now rewrite IH.
Qed.

Lemma after_prefix_app (p s : string) : after_prefix p (p ++ s) = Some s.
Proof.
  induction p as [|a p IH]; simpl.
  - now destruct s.
  - now rewrite Ascii.eqb_refl.
Qed.

Lemma executed_app (t1 t2 : list event) :
  executed (t1 ++ t2) = (executed t1 ++ executed t2)%list.
Proof.
  induction t1 as [|e t1 IH]; simpl; [reflexivity|].
  destruct e; simpl; now rewrite IH.
Qed.



(** ** The monad *)

Lemma bind_ret {A B} (a : A) (k : A -> M B) : bind (ret a) k = k a.
Proof. unfold bind, ret. now destruct (k a). Qed.

Lemma bind_value {A B} (m : M A) (a : A) (k : A -> M B) :
  outcome m = inr a ->
  bind m k = ((trace m ++ trace (k a))%list, outcome (k a)).
Proof.
  destruct m as [t r]. cbn [outcome snd trace fst]. intros ->.
  unfold bind. now destruct (k a).
Qed.

Lemma bind_raised {A B} (m : M A) (e : exn) (k : A -> M B) :
  outcome m = inl e -> bind m k = (trace m, inl e).
Proof. destruct m as [t r]. cbn [outcome snd trace fst]. now intros ->. Qed.

Lemma bind_assoc {A B C} (m : M A) (f : A -> M B) (g : B -> M C) :
  bind (bind m f) g = bind m (fun x => bind (f x) g).
Proof.
  destruct m as [t [e|a]]; [reflexivity|]. cbn [bind].
  destruct (f a) as [t' [e'|b]]; [reflexivity|]. cbn [bind].
  destruct (g b) as [t'' r]. now rewrite app_assoc.
Qed.

(** ** The body of the loop, case by case *)

Lemma body_comment (dr : bool) (line : string) :
  Py.re_match_hash line = true ->
  body dr line =
  (if dr then [Printed ("SKIP (comment line): " ++ Py.rstrip Py.nl line) Py.nl]
   else [], inr tt).
Proof.
  intros Hm. unfold body. rewrite Hm. now destruct dr.
Qed.

Lemma body_malformed (dr : bool) (line : string) :
  Py.re_match_hash line = false ->
  List.length (Py.split ":" (Py.strip line)) <> 5 ->
  body dr line =
  (if dr
   then [Printed ("ERROR (dry-run): Not enough fields in line: "
                ++ Py.rstrip Py.nl line) Py.nl]
   else [], inr tt).
Proof.
  intros Hm Hlen. unfold body. rewrite Hm.
  apply Nat.eqb_neq in Hlen. rewrite Hlen. now destruct dr.
Qed.

(** One announcement with its if/else, lines 70 to 83, 86 to 101 and 110 to
    116, before the rest [k] of the body. *)
Lemma step_ok (dr : bool) (a c : string) (k : M unit) :
  (print a ;;
   (if dr then print (would_run ++ c) else print c ;; os_system c) ;; k)
  = if dr then
      (Printed a Py.nl :: Printed (would_run ++ c) Py.nl :: trace k, outcome k)
    else if has_nul c then
      ([Printed a Py.nl; Printed c Py.nl; System c], inl ValueError)
    else
      (Printed a Py.nl :: Printed c Py.nl :: System c :: trace k, outcome k).
Proof.
  destruct k as [t r]. destruct dr; [reflexivity|].
  unfold os_system. now destruct (has_nul c).
Qed.

Lemma groups_ok (dr : bool) (u : string) (groups : list string) :
  for_each groups (fun group =>
    if negb (String.eqb group "-") then
      print ("==> Assigning " ++ u ++ " to the " ++ group ++ " group...") ;;
      if dr then print (would_run ++ "/usr/sbin/adduser " ++ u ++ " " ++ group)
      else print ("/usr/sbin/adduser " ++ u ++ " " ++ group) ;;
           os_system ("/usr/sbin/adduser " ++ u ++ " " ++ group)
    else ret tt)
  = run_steps dr
      (map (fun group =>
              ("==> Assigning " ++ u ++ " to the " ++ group ++ " group...",
               "/usr/sbin/adduser " ++ u ++ " " ++ group))
           (filter not_dash groups)).
Proof.
  induction groups as [|group groups IH]; [reflexivity|].
  cbn [for_each filter]. unfold not_dash at 1.
  destruct (negb (String.eqb group "-")).
  - rewrite bind_assoc, step_ok, IH. reflexivity.
  - rewrite bind_ret. exact IH.
Qed.

Lemma body_valid (dr : bool) (line u p l f g : string) :
  Py.re_match_hash line = false ->
  Py.split ":" (Py.strip line) = [u; p; l; f; g] ->
  body dr line = run_steps dr (steps u p l f (Py.split "," g)).
Proof.
  intros Hm Hf. unfold body. rewrite Hm, Hf.
  cbn [List.length Nat.eqb negb index nth_error].
  rewrite !bind_ret. cbv zeta.
  rewrite groups_ok, step_ok, step_ok.
  unfold steps. cbn [run_steps]. rewrite !str_app_assoc. cbn [append].
  destruct dr; [reflexivity|].
  repeat match goal with |- context [has_nul ?c] => destruct (has_nul c) end;
    reflexivity.
Qed.

(** ** What a list of steps gives *)

Lemma run_steps_dry (ss : list (string * string)) :
  outcome (run_steps true ss) = inr tt.
Proof. induction ss as [|[a c] ss IH]; [reflexivity | exact IH]. Qed.



Lemma executed_run_live (ss : list (string * string)) :
  executed (trace (run_steps false ss)) = upto_raise (map snd ss).
Proof.
  induction ss as [|[a c] ss IH]; [reflexivity|].
  cbn [run_steps map snd upto_raise]. destruct (has_nul c); [reflexivity|].
  cbn [trace fst executed]. now rewrite <- IH.
Qed.

Lemma described_run_dry (ss : list (string * string)) :
  Forall (fun ac => after_prefix would_run (fst ac) = None) ss ->
  described (trace (run_steps true ss)) = map snd ss.
Proof.
  induction 1 as [|[a c] ss Ha _ IH]; [reflexivity|].
  cbn [run_steps trace fst described map snd] in *.
  now rewrite Ha, after_prefix_app, <- IH.
Qed.


Lemma upto_raise_value (ss : list (string * string)) :
  outcome (run_steps false ss) = inr tt ->
  upto_raise (map snd ss) = map snd ss.
Proof.
  induction ss as [|[a c] ss IH]; [reflexivity|].
  cbn [run_steps map snd upto_raise]. destruct (has_nul c); [discriminate|].
  intros H. now rewrite (IH H).
Qed.

Lemma output_run (dr : bool) (ss : list (string * string)) :
  forallb output_event (trace (run_steps dr ss)) = true.
Proof.
  induction ss as [|[a c] ss IH]; [reflexivity|].
  cbn [run_steps]. destruct dr; [exact IH|].
  destruct (has_nul c); [reflexivity | exact IH].
Qed.

Lemma echoed_run (dr : bool) (ss : list (string * string)) :
  forall q, echoed_from q (trace (run_steps dr ss)) = true.
Proof.
  induction ss as [|[a c] ss IH]; [reflexivity|].
  intros q. cbn [run_steps]. destruct dr; [apply IH|].
  destruct (has_nul c); cbn [trace fst echoed_from];
    rewrite String.eqb_refl; [reflexivity | apply IH].
Qed.

Lemma steps_announce (u p l f : string) (groups : list string) :
  Forall (fun ac => after_prefix would_run (fst ac) = None)
         (steps u p l f groups).
Proof.
  unfold steps. repeat (constructor; [reflexivity|]).
  apply Forall_forall. intros ac Hin.
  apply in_map_iff in Hin as (group & <- & _). reflexivity.
Qed.

Lemma map_snd_steps (u p l f : string) (groups : list string) :
  map snd (steps u p l f groups) =
  ("/usr/sbin/useradd -m -c '" ++ f ++ " " ++ l ++ ",,,' " ++ u)
  :: ("/bin/echo -ne '" ++ p ++ Py.nl ++ p
      ++ "' | /usr/bin/sudo /usr/bin/passwd " ++ u)
  :: map (fun group => "/usr/sbin/adduser " ++ u ++ " " ++ group)
         (filter not_dash groups).
Proof. unfold steps. cbn [map snd]. now rewrite map_map. Qed.

(** ** The commands of one line *)

Lemma commands_valid (dr : bool) (line u p l f g : string) :
  Py.re_match_hash line = false ->
  Py.split ":" (Py.strip line) = [u; p; l; f; g] ->
  let cmds :=
    ("/usr/sbin/useradd -m -c '" ++ f ++ " " ++ l ++ ",,,' " ++ u)
    :: ("/bin/echo -ne '" ++ p ++ Py.nl ++ p
        ++ "' | /usr/bin/sudo /usr/bin/passwd " ++ u)
    :: map (fun group => "/usr/sbin/adduser " ++ u ++ " " ++ group)
           (filter not_dash (Py.split "," g)) in
  commands dr (trace (body dr line)) = if dr then cmds else upto_raise cmds.
Proof.
  intros Hm Hf cmds. rewrite (body_valid dr line u p l f g Hm Hf).
  unfold cmds. rewrite <- map_snd_steps. destruct dr; unfold commands.
  - apply described_run_dry, steps_announce.
  - apply executed_run_live.
Qed.

Lemma commands_skipped (dr : bool) (line : string) :
  Py.re_match_hash line = true \/
  List.length (Py.split ":" (Py.strip line)) <> 5 ->
  described (trace (body dr line)) = [] /\ executed (trace (body dr line)) = [].
Proof.
  intros H. destruct (Py.re_match_hash line) eqn:Hm.
  - rewrite (body_comment dr line Hm). now destruct dr.
  - destruct H as [H|H]; [discriminate|].
    rewrite (body_malformed dr line Hm H). now destruct dr.
Qed.

(** Every line takes one of the three ways. *)
Lemma line_shape_total (line : string) : line_shape line.
Proof.
  destruct (Py.re_match_hash line) eqn:Hm.
  - now apply IsComment.
  - destruct (Py.split ":" (Py.strip line))
      as [|u [|p [|l [|f [|g [|x fs]]]]]] eqn:Hf;
      try (apply IsMalformed; [exact Hm | rewrite Hf; simpl; lia]).
    now apply (IsValid line u p l f g).
Qed.

Lemma body_dry_returns (line : string) : outcome (body true line) = inr tt.
Proof.
  destruct (line_shape_total line) as [Hm | Hm Hl | u p l f g Hm Hf].
  - now rewrite (body_comment true line Hm).
  - now rewrite (body_malformed true line Hm Hl).
  - rewrite (body_valid true line u p l f g Hm Hf). apply run_steps_dry.
Qed.

Lemma body_output (dr : bool) (line : string) :
  forallb output_event (trace (body dr line)) = true.
Proof.
  destruct (line_shape_total line) as [Hm | Hm Hl | u p l f g Hm Hf].
  - rewrite (body_comment dr line Hm). now destruct dr.
  - rewrite (body_malformed dr line Hm Hl). now destruct dr.
  - rewrite (body_valid dr line u p l f g Hm Hf). apply output_run.
Qed.


(** ** The loop over the input *)

Lemma bind_emit {B} (e : event) (k : unit -> M B) :
  bind (emit e) k = (e :: trace (k tt), outcome (k tt)).
Proof. unfold emit, bind, trace, outcome. now destruct (k tt). Qed.

Lemma process_cons_value (dr : bool) (line : string) (rest : list string) :
  outcome (body dr line) = inr tt ->
  process dr (line :: rest) =
  ((StdinNext line :: trace (body dr line) ++ trace (process dr rest))%list,
   outcome (process dr rest)).
Proof.
  intros H. unfold process. cbn [for_each].
  rewrite bind_assoc, bind_emit. now rewrite (bind_value _ tt _ H).
Qed.

Lemma process_cons_raised (dr : bool) (line : string) (rest : list string)
      (e : exn) :
  outcome (body dr line) = inl e ->
  process dr (line :: rest) = (StdinNext line :: trace (body dr line), inl e).
Proof.
  intros H. unfold process. cbn [for_each].
  rewrite bind_assoc, bind_emit. now rewrite (bind_raised _ e _ H).
Qed.

Lemma process_dry_returns (lines : list string) :
  outcome (process true lines) = inr tt.
Proof.
  induction lines as [|line lines IH]; [reflexivity|].
  now rewrite (process_cons_value true line lines (body_dry_returns line)).
Qed.


Lemma main_ok (dev stdin : string) :
  main (Some dev) stdin =
  (Printed "Run in dry-run mode? (Y/N): " EmptyString
   :: TtyReadline (Py.readline dev)
   :: trace (process (dry_run_of (Py.readline dev)) (Py.file_lines stdin)),
   outcome (process (dry_run_of (Py.readline dev)) (Py.file_lines stdin))).
Proof.
  unfold main, print_end, emit. cbv zeta. cbn [bind ret app].
  fold (dry_run_of (Py.readline dev)).
  now destruct (process (dry_run_of (Py.readline dev)) (Py.file_lines stdin)).
Qed.

(** ** The answer on the terminal *)

Lemma text_eqb_eq (a b : list N) : Py.text_eqb a b = true <-> a = b.
Proof.
  revert b. induction a as [|x a IH]; intros [|y b]; simpl;
    try (split; [discriminate | discriminate]); [now split|].
  rewrite andb_true_iff, N.eqb_eq, IH.
  split; [intros [-> ->]; reflexivity | intros [= -> ->]; now split].
Qed.

Lemma upper_cp_Y (c : ascii) :
  Py.upper_cp c = [89%N] -> c = "Y"%char \/ c = "y"%char.
Proof.
  destruct c as [[] [] [] [] [] [] [] []]; vm_compute;
    intros H; try discriminate H; auto.
Qed.

Lemma upper_cp_cons (c : ascii) : exists n ns, Py.upper_cp c = n :: ns.
Proof.
  unfold Py.upper_cp.
  repeat match goal with |- context [if ?b then _ else _] => destruct b end;
    eauto.
Qed.

Lemma upper_Y (s : string) :
  Py.upper s = [89%N] <-> s = "Y" \/ s = "y".
Proof.
  split.
  - destruct s as [|c s]; simpl; [discriminate|].
    destruct (upper_cp_cons c) as (n & ns & Hc).
    intros H. assert (Hs : s = EmptyString).
    { destruct s as [|d s]; [reflexivity|]. simpl in H.
      destruct (upper_cp_cons d) as (m & ms & Hd).
      rewrite Hc, Hd in H. simpl in H.
      injection H as _ H. now destruct ns. }
    subst s. simpl in H. rewrite app_nil_r in H.
    destruct (upper_cp_Y c H) as [-> | ->]; auto.
  - now intros [-> | ->].
Qed.

Lemma dry_run_of_iff (answer : string) :
  dry_run_of answer = true <->
  Py.strip answer = "Y" \/ Py.strip answer = "y".
Proof.
  unfold dry_run_of. rewrite text_eqb_eq. apply upper_Y.
Qed.

Lemma readline_line_end (a rest : string) (eol : ascii) :
  count_char Py.LF a = 0 -> count_char Py.CR a = 0 ->
  eol = Py.LF \/ eol = Py.CR ->
  Py.readline (a ++ String eol rest) = a ++ Py.nl.
Proof.
  intros Hlf Hcr Heol. induction a as [|c a IH].
  - cbn [append Py.readline]. now destruct Heol as [-> | ->].
  - cbn [append Py.readline]. cbn [count_char] in Hlf, Hcr.
    destruct (Ascii.eqb c Py.LF); [discriminate|].
    destruct (Ascii.eqb c Py.CR); [discriminate|].
    cbn [orb]. now rewrite (IH Hlf Hcr).
Qed.

Lemma readline_no_line_end (a : string) :
  count_char Py.LF a = 0 -> count_char Py.CR a = 0 -> Py.readline a = a.
Proof.
  induction a as [|c a IH]; [reflexivity|].
  cbn [Py.readline count_char]. intros Hlf Hcr.
  destruct (Ascii.eqb c Py.LF); [discriminate|].
  destruct (Ascii.eqb c Py.CR); [discriminate|].
  cbn [orb]. now rewrite (IH Hlf Hcr).
Qed.

Lemma rstrip_by_snoc (p : ascii -> bool) (c : ascii) (s : string) :
  p c = true ->
  Py.rstrip_by p (s ++ String c EmptyString) = Py.rstrip_by p s.
Proof.
  intros Hc. induction s as [|d s IH]; simpl.
  - now rewrite Hc.
  - now rewrite IH.
Qed.

Lemma rstrip_line_feed (line : string) :
  Py.rstrip Py.nl (line ++ Py.nl) = Py.rstrip Py.nl line.
Proof. apply rstrip_by_snoc. reflexivity. Qed.

Lemma strip_line_feed (line : string) :
  Py.strip (line ++ Py.nl) = Py.strip line.
Proof. unfold Py.strip, Py.nl. now rewrite rstrip_by_snoc. Qed.

(** ** What a trace holds *)

Lemma tty_reads_app (t1 t2 : list event) :
  tty_reads (t1 ++ t2) = tty_reads t1 + tty_reads t2.
Proof.
  induction t1 as [|e t1 IH]; [reflexivity|].
  destruct e; simpl; now rewrite IH.
Qed.


Lemma output_no_reads (t : list event) :
  forallb output_event t = true -> tty_reads t = 0 /\ stdin_reads t = [].
Proof.
  induction t as [|e t IH]; [now split|].
  cbn [forallb]. intros H. apply andb_true_iff in H as [He Ht].
  destruct e; try discriminate He; now apply IH.
Qed.

Lemma tty_reads_process (dr : bool) (lines : list string) :
  tty_reads (trace (process dr lines)) = 0.
Proof.
  induction lines as [|line lines IH]; [reflexivity|].
  destruct (output_no_reads _ (body_output dr line)) as [Hb _].
  destruct (outcome (body dr line)) as [e|[]] eqn:Ho.
  - rewrite (process_cons_raised dr line lines e Ho).
    cbn [trace fst tty_reads]. exact Hb.
  - rewrite (process_cons_value dr line lines Ho).
    cbn [trace fst tty_reads]. now rewrite tty_reads_app, Hb, IH.
Qed.


Lemma echoed_from_app (t1 t2 : list event) (prev : option string) :
  echoed_from prev t1 = true ->
  (forall q, echoed_from q t2 = true) ->
  echoed_from prev (t1 ++ t2) = true.
Proof.
  intros H1 H2. revert prev H1.
  induction t1 as [|e t1 IH]; intros prev H1; [apply H2|].
  destruct e; cbn [app echoed_from] in H1 |- *.
  - now apply IH.
  - apply andb_true_iff in H1 as [Hp Ht]. rewrite Hp. now apply IH.
  - now apply IH.
  - now apply IH.
Qed.

Lemma echoed_body (dr : bool) (line : string) :
  forall q, echoed_from q (trace (body dr line)) = true.
Proof.
  intros q.
  destruct (line_shape_total line) as [Hm | Hm Hl | u p l f g Hm Hf].
  - rewrite (body_comment dr line Hm). now destruct dr.
  - rewrite (body_malformed dr line Hm Hl). now destruct dr.
  - rewrite (body_valid dr line u p l f g Hm Hf). apply echoed_run.
Qed.

Lemma echoed_process (dr : bool) (lines : list string) :
  forall q, echoed_from q (trace (process dr lines)) = true.
Proof.
  induction lines as [|line lines IH]; [reflexivity|]. intros q.
  destruct (outcome (body dr line)) as [e|[]] eqn:Ho.
  - rewrite (process_cons_raised dr line lines e Ho).
    cbn [trace fst echoed_from]. apply echoed_body.
  - rewrite (process_cons_value dr line lines Ho).
    cbn [trace fst echoed_from].
    apply echoed_from_app; [apply echoed_body | exact IH].
Qed.

(** ** Splitting and joining *)

Lemma split_cons (sep : ascii) (s : string) :
  exists f fs, Py.split sep s = f :: fs.
Proof.
  destruct s as [|c s]; simpl; [eauto|].
  destruct (Ascii.eqb c sep); [eauto|].
  destruct (Py.split sep s); eauto.
Qed.

Lemma split_length (sep : ascii) (s : string) :
  List.length (Py.split sep s) = S (count_char sep s).
Proof.
  induction s as [|c s IH]; simpl; [reflexivity|].
  destruct (Ascii.eqb c sep); simpl; [now rewrite IH|].
  destruct (split_cons sep s) as (f & fs & Hs).
  rewrite Hs in IH |- *. exact IH.
Qed.

Lemma split_join (sep : ascii) (s : string) :
  join (String sep EmptyString) (Py.split sep s) = s.
Proof.
  induction s as [|c s IH]; [reflexivity|]. cbn [Py.split].
  destruct (split_cons sep s) as (f & fs & Hs).
  rewrite Hs in IH |- *.
  destruct (Ascii.eqb_spec c sep) as [->|Hne].
  - change (String sep (join (String sep EmptyString) (f :: fs)) = String sep s).
    now rewrite IH.
  - destruct fs as [|f' fs].
    + cbn [join] in IH |- *. now rewrite IH.
    + change (String c (join (String sep EmptyString) (f :: f' :: fs))
              = String c s).
      now rewrite IH.
Qed.

Lemma split_no_sep (sep : ascii) (s f : string) :
  In f (Py.split sep s) -> count_char sep f = 0.
Proof.
  revert f. induction s as [|c s IH]; simpl; intros f Hin.
  - destruct Hin as [<-|[]]. reflexivity.
  - destruct (Ascii.eqb c sep) eqn:Hc.
    + destruct Hin as [<-|Hin]; [reflexivity | now apply IH].
    + destruct (split_cons sep s) as (g & gs & Hs). rewrite Hs in IH, Hin.
      destruct Hin as [<-|Hin].
      * simpl. rewrite Hc. apply IH. now left.
      * apply IH. now right.
Qed.

Lemma split_no_sep_field (sep : ascii) (f : string) :
  count_char sep f = 0 -> Py.split sep f = [f].
Proof.
  induction f as [|c f IH]; simpl; [reflexivity|].
  destruct (Ascii.eqb c sep); [discriminate|].
  intros H. now rewrite (IH H).
Qed.

Lemma split_app_sep (sep : ascii) (f rest : string) :
  count_char sep f = 0 ->
  Py.split sep (f ++ String sep rest) = f :: Py.split sep rest.
Proof.
  induction f as [|c f IH]; simpl.
  - now rewrite Ascii.eqb_refl.
  - destruct (Ascii.eqb c sep); [discriminate|].
    intros H. now rewrite (IH H).
Qed.

Lemma join_split (sep : ascii) (xs : list string) :
  xs <> [] ->
  (forall x, In x xs -> count_char sep x = 0) ->
  Py.split sep (join (String sep EmptyString) xs) = xs.
Proof.
  induction xs as [|x xs IH]; [now intros H|]. intros _ Hall.
  destruct xs as [|y ys].
  - simpl. apply split_no_sep_field. apply Hall. now left.
  - change (join (String sep EmptyString) (x :: y :: ys))
      with (x ++ String sep (join (String sep EmptyString) (y :: ys))).
    rewrite split_app_sep by (apply Hall; now left).
    rewrite IH; [reflexivity | discriminate |].
    intros z Hz. apply Hall. now right.
Qed.

Lemma body_line_feed (dr : bool) (line : string) :
  body dr (line ++ Py.nl) = body dr line.
Proof.
  unfold body.
  assert (Hm : Py.re_match_hash (line ++ Py.nl) = Py.re_match_hash line)
    by now destruct line.
  now rewrite rstrip_line_feed, strip_line_feed, Hm.
Qed.




(** ** Scenarios *)

Example scenario_A :
  trace (body true "alice:Secret1:Smith:Alice:wheel,docker") =
  [ Printed "==> Creating account for alice..." Py.nl;
    Printed "DRY-RUN: would run: /usr/sbin/useradd -m -c 'Alice Smith,,,' alice" Py.nl;
    Printed "==> Setting the password for alice..." Py.nl;
    Printed ("DRY-RUN: would run: /bin/echo -ne 'Secret1" ++ Py.nl
           ++ "Secret1' | /usr/bin/sudo /usr/bin/passwd alice") Py.nl;
    Printed "==> Assigning alice to the wheel group..." Py.nl;
    Printed "DRY-RUN: would run: /usr/sbin/adduser alice wheel" Py.nl;
    Printed "==> Assigning alice to the docker group..." Py.nl;
    Printed "DRY-RUN: would run: /usr/sbin/adduser alice docker" Py.nl ].
Proof. reflexivity. Qed.

(** A live run of a record whose user name holds U+0000 ends at the first
    call of [os.system]. *)
Example nul_record_run :
  let u := "a" ++ String Py.NUL EmptyString in
  Py.split ":" (Py.strip nul_record) = [u; "pw"; "L"; "F"; "g"] /\
  body false nul_record =
    ([ Printed ("==> Creating account for " ++ u ++ "...") Py.nl;
       Printed ("/usr/sbin/useradd -m -c 'F L,,,' " ++ u) Py.nl;
       System ("/usr/sbin/useradd -m -c 'F L,,,' " ++ u) ],
     inl ValueError).
Proof. split; reflexivity. Qed.

(** * The properties of the specification *)

(** ** Comment lines *)

(** C1, as stated, fails: the first non-whitespace character of
    [indented_comment] is [#], yet the guard of line 41 looks at the first
    character of the line; the line is a valid record of user [#bob] and its
    three commands are described in a dry run and executed in a live run. *)
Lemma indented_comment_is_a_record :
  first_non_whitespace indented_comment = Some "#"%char /\
  classify indented_comment <> Comment /\
  described (trace (body true indented_comment)) =
    [ "/usr/sbin/useradd -m -c 'Bob Lee,,,' #bob";
      "/bin/echo -ne 'pw" ++ Py.nl ++ "pw' | /usr/bin/sudo /usr/bin/passwd #bob";
      "/usr/sbin/adduser #bob staff" ] /\
  executed (trace (body false indented_comment)) =
    [ "/usr/sbin/useradd -m -c 'Bob Lee,,,' #bob";
      "/bin/echo -ne 'pw" ++ Py.nl ++ "pw' | /usr/bin/sudo /usr/bin/passwd #bob";
      "/usr/sbin/adduser #bob staff" ].
Proof.
  repeat split; try reflexivity.
  vm_compute. discriminate.
Qed.

(** C1, amended: a line whose first character is [#] is classified as a
    comment and is never treated as a record.  In a dry run its only effect
    is the SKIP message, in a live run it has none; no command is described
    or executed for it in either mode. *)
Theorem comment_line_no_action (dry_run : bool) (rest : string) :
  let line := String "#" rest in
  classify line = Comment /\
  body dry_run line =
    (if dry_run
     then [Printed ("SKIP (comment line): " ++ Py.rstrip Py.nl line) Py.nl]
     else [], inr tt) /\
  described (trace (body dry_run line)) = [] /\
  executed (trace (body dry_run line)) = [].
Proof.
  intros line.
  assert (Hm : Py.re_match_hash line = true) by reflexivity.
  split; [reflexivity|]. split; [exact (body_comment dry_run line Hm)|].
  exact (commands_skipped dry_run line (or_introl Hm)).
Qed.

(** ** Malformed lines *)

Lemma classify_malformed (line : string) :
  Py.re_match_hash line = false ->
  List.length (Py.split ":" (Py.strip line)) <> 5 ->
  classify line = Malformed.
Proof.
  intros Hm Hl. unfold classify. rewrite Hm.
  destruct (Py.split ":" (Py.strip line))
    as [|u [|p [|l [|f [|g [|x fs]]]]]]; try reflexivity.
  now contradiction Hl.
Qed.

(** C3: a line that is not a comment and whose stripped text does not split
    on [:] into exactly 5 fields is classified Malformed; the body ends
    normally (no exception), and no command is described or executed for it,
    whatever the fields hold.  The empty line splits into one empty field
    and is such a line. *)
Theorem malformed_line_no_action (dry_run : bool) (line : string) :
  Py.re_match_hash line = false ->
  List.length (Py.split ":" (Py.strip line)) <> 5 ->
  classify line = Malformed /\
  outcome (body dry_run line) = inr tt /\
  described (trace (body dry_run line)) = [] /\
  executed (trace (body dry_run line)) = [] /\
  Py.split ":" (Py.strip EmptyString) = [EmptyString] /\
  classify EmptyString = Malformed /\
  body dry_run EmptyString =
    (if dry_run
     then [Printed "ERROR (dry-run): Not enough fields in line: " Py.nl]
     else [], inr tt).
Proof.
  intros Hm Hl.
  split; [exact (classify_malformed line Hm Hl)|].
  split; [now rewrite (body_malformed dry_run line Hm Hl)|].
  destruct (commands_skipped dry_run line (or_intror Hl)) as [Hd He].
  repeat split; try assumption. now destruct dry_run.
Qed.

Lemma malformed_line_no_action_witness :
  classify "badline:onlytwo" = Malformed /\
  outcome (body false "badline:onlytwo") = inr tt /\
  described (trace (body false "badline:onlytwo")) = [] /\
  executed (trace (body false "badline:onlytwo")) = [].
Proof.
  destruct (malformed_line_no_action false "badline:onlytwo")
    as (Hc & Ho & Hd & He & _).
  - reflexivity.
  - simpl. lia.
  - repeat split; assumption.
Defined.

(** ** Diagnostics *)

(** C7: for a comment line and for a malformed line, a dry run prints one
    message, which names the reason and echoes the line without its line
    feed, and a live run prints nothing; in both modes the loop goes on with
    the next line: what it does from such a line on is the read of the line,
    the body of the line and then what it does on the lines that follow,
    and it ends as the loop over these ends. *)
Theorem skipped_line_diagnostic (line : string) :
  Py.re_match_hash line = true \/
  List.length (Py.split ":" (Py.strip line)) <> 5 ->
  trace (body true line) =
    [Printed ((if Py.re_match_hash line
             then "SKIP (comment line): "
             else "ERROR (dry-run): Not enough fields in line: ")
            ++ Py.rstrip Py.nl line) Py.nl] /\
  trace (body false line) = [] /\
  forall (dry_run : bool) (rest : list string),
    process dry_run (line :: rest) =
      ((StdinNext line :: trace (body dry_run line)
        ++ trace (process dry_run rest))%list,
       outcome (process dry_run rest)).
Proof.
  intros H.
  assert (Ho : forall dr, outcome (body dr line) = inr tt).
  { intros dr. destruct (Py.re_match_hash line) eqn:Hm.
    - now rewrite (body_comment dr line Hm).
    - destruct H as [H|H]; [discriminate|].
      now rewrite (body_malformed dr line Hm H). }
  assert (Hp : forall dr rest,
    process dr (line :: rest) =
      ((StdinNext line :: trace (body dr line) ++ trace (process dr rest))%list,
       outcome (process dr rest))).
  { intros dr rest. apply process_cons_value, Ho. }
  destruct (Py.re_match_hash line) eqn:Hm.
  - rewrite (body_comment true line Hm), (body_comment false line Hm).
    split; [reflexivity|]. split; [reflexivity | exact Hp].
  - destruct H as [H|H]; [discriminate|].
    rewrite (body_malformed true line Hm H), (body_malformed false line Hm H).
    split; [reflexivity|]. split; [reflexivity | exact Hp].
Qed.

Lemma skipped_line_diagnostic_witness :
  trace (body true ("# setup file" ++ Py.nl)) =
    [Printed "SKIP (comment line): # setup file" Py.nl] /\
  trace (body false ("# setup file" ++ Py.nl)) = [].
Proof.
  destruct (skipped_line_diagnostic ("# setup file" ++ Py.nl)) as (Hd & Hl & _).
  - left. reflexivity.
  - split; [exact Hd | exact Hl].
Defined.

(** ** Valid records *)




Lemma commands_valid_value (dr : bool) (line u p l f g : string) :
  Py.re_match_hash line = false ->
  Py.split ":" (Py.strip line) = [u; p; l; f; g] ->
  outcome (body dr line) = inr tt ->
  commands dr (trace (body dr line)) =
  ("/usr/sbin/useradd -m -c '" ++ f ++ " " ++ l ++ ",,,' " ++ u)
  :: ("/bin/echo -ne '" ++ p ++ Py.nl ++ p
      ++ "' | /usr/bin/sudo /usr/bin/passwd " ++ u)
  :: map (fun group => "/usr/sbin/adduser " ++ u ++ " " ++ group)
         (filter not_dash (Py.split "," g)).
Proof.
  intros Hm Hf Ho. rewrite (commands_valid dr line u p l f g Hm Hf).
  destruct dr; [reflexivity|].
  rewrite (body_valid false line u p l f g Hm Hf) in Ho.
  rewrite <- map_snd_steps. now apply upto_raise_value.
Qed.





(** C5: for a valid record the first command is the add-user command with
    the flag [-m] (create the home directory), the comment field
    ['<fourth field> <third field>,,,'] and the user name; for
    [alice:Secret1:Smith:Alice:wheel,docker] it holds [-c 'Alice Smith,,,']. *)
Theorem useradd_command (dry_run : bool) (line u p l f g : string) :
  Py.re_match_hash line = false ->
  Py.split ":" (Py.strip line) = [u; p; l; f; g] ->
  nth_error (commands dry_run (trace (body dry_run line))) 0 =
    Some ("/usr/sbin/useradd -m -c '" ++ f ++ " " ++ l ++ ",,,' " ++ u) /\
  nth_error
    (commands dry_run
       (trace (body dry_run "alice:Secret1:Smith:Alice:wheel,docker"))) 0 =
    Some ("/usr/sbin/useradd -m " ++ "-c 'Alice Smith,,,'" ++ " alice").
Proof.
  intros Hm Hf. split.
  - rewrite (commands_valid dry_run line u p l f g Hm Hf).
    destruct dry_run; [reflexivity|]. cbn [upto_raise].
    now destruct (has_nul _).
  - now destruct dry_run.
Qed.

Lemma useradd_command_witness :
  nth_error (commands true (trace (body true "bob:pw:Lee:Bob:-"))) 0 =
    Some "/usr/sbin/useradd -m -c 'Bob Lee,,,' bob".
Proof.
  destruct (useradd_command true "bob:pw:Lee:Bob:-" "bob" "pw" "Lee" "Bob" "-")
    as [H _].
  - reflexivity.
  - reflexivity.
  - exact H.
Defined.

(** C8: the password command of a valid record echoes the password, a line
    feed and the password again into [passwd] for the user name, run under
    [sudo].  It is the second command that a dry run describes; a live run
    that gets past the add-user command hands it to [os.system] as its
    second command, and in either mode a second command of the record is
    never anything else. *)
Theorem passwd_command (dry_run : bool) (line u p l f g : string) :
  Py.re_match_hash line = false ->
  Py.split ":" (Py.strip line) = [u; p; l; f; g] ->
  let passwd_cmd :=
    "/bin/echo -ne '" ++ p ++ Py.nl ++ p
    ++ "' | /usr/bin/sudo /usr/bin/passwd " ++ u in
  nth_error (described (trace (body true line))) 1 = Some passwd_cmd /\
  (has_nul ("/usr/sbin/useradd -m -c '" ++ f ++ " " ++ l ++ ",,,' " ++ u)
   = false ->
   nth_error (executed (trace (body false line))) 1 = Some passwd_cmd) /\
  (forall cmd,
     nth_error (commands dry_run (trace (body dry_run line))) 1 = Some cmd ->
     cmd = passwd_cmd).
Proof.
  intros Hm Hf passwd_cmd.
  pose proof (commands_valid true line u p l f g Hm Hf) as Hd.
  pose proof (commands_valid false line u p l f g Hm Hf) as Hl.
  cbv zeta in Hd, Hl. unfold commands in Hd, Hl. cbn [upto_raise] in Hl.
  split; [now rewrite Hd|]. split.
  - intros Hc. rewrite Hl, Hc. cbn [nth_error].
    destruct (has_nul ("/bin/echo -ne '" ++ _)); reflexivity.
  - intros cmd. destruct dry_run; unfold commands.
    + rewrite Hd. cbn [nth_error]. now intros [= <-].
    + rewrite Hl.
      destruct (has_nul ("/usr/sbin/useradd -m -c '" ++ _));
        [discriminate|]. cbn [nth_error].
      destruct (has_nul ("/bin/echo -ne '" ++ _)); cbn [nth_error];
        now intros [= <-].
Qed.

Lemma passwd_command_witness :
  nth_error (executed (trace (body false "bob:pw:Lee:Bob:-"))) 1 =
    Some ("/bin/echo -ne 'pw" ++ Py.nl
          ++ "pw' | /usr/bin/sudo /usr/bin/passwd bob").
Proof.
  destruct (passwd_command false "bob:pw:Lee:Bob:-" "bob" "pw" "Lee" "Bob" "-")
    as (_ & H & _).
  - reflexivity.
  - reflexivity.
  - apply H. reflexivity.
Defined.

(** ** Group entries *)





(** ** The password on the console *)

(** C10, as stated, fails in a live run: [os.system] raises on the add-user
    command of [nul_record] before line 89 is reached, and the password
    command of the record is never printed. *)
Lemma nul_record_password_not_printed :
  let u := "a" ++ String Py.NUL EmptyString in
  Py.re_match_hash nul_record = false /\
  Py.split ":" (Py.strip nul_record) = [u; "pw"; "L"; "F"; "g"] /\
  ~ In (Printed ("/bin/echo -ne 'pw" ++ Py.nl
                 ++ "pw' | /usr/bin/sudo /usr/bin/passwd " ++ u) Py.nl)
       (trace (body false nul_record)).
Proof.
  repeat split; try reflexivity.
  vm_compute. intros [H|[H|[H|[]]]]; discriminate H.
Qed.

(** C10, amended: for a valid record, in a dry run, and in a live run
    whenever [os.system] does not raise on the add-user command of the
    record, one of the texts printed is the whole password command, which
    holds the password of the record twice, as it was read. *)
Theorem password_on_console (dry_run : bool) (line u p l f g : string) :
  Py.re_match_hash line = false ->
  Py.split ":" (Py.strip line) = [u; p; l; f; g] ->
  (dry_run = false ->
   has_nul ("/usr/sbin/useradd -m -c '" ++ f ++ " " ++ l ++ ",,,' " ++ u)
   = false) ->
  In (Printed ((if dry_run then would_run else EmptyString)
             ++ "/bin/echo -ne '" ++ p ++ Py.nl ++ p
             ++ "' | /usr/bin/sudo /usr/bin/passwd " ++ u) Py.nl)
     (trace (body dry_run line)).
Proof.
  intros Hm Hf Hc.
  rewrite (body_valid dry_run line u p l f g Hm Hf).
  unfold steps. cbn [run_steps]. destruct dry_run.
  - cbn [trace fst]. right. right. right. now left.
  - rewrite (Hc eq_refl).
    destruct (has_nul ("/bin/echo -ne '" ++ _)); cbn [trace fst];
      right; right; right; right; now left.
Qed.

Lemma password_on_console_witness :
  In (Printed ("DRY-RUN: would run: /bin/echo -ne 'Secret1" ++ Py.nl
             ++ "Secret1' | /usr/bin/sudo /usr/bin/passwd alice") Py.nl)
     (trace (body true "alice:Secret1:Smith:Alice:wheel,docker")) /\
  In (Printed ("/bin/echo -ne 'Secret1" ++ Py.nl
             ++ "Secret1' | /usr/bin/sudo /usr/bin/passwd alice") Py.nl)
     (trace (body false "alice:Secret1:Smith:Alice:wheel,docker")).
Proof.
  split.
  - apply (password_on_console true "alice:Secret1:Smith:Alice:wheel,docker"
             "alice" "Secret1" "Smith" "Alice" "wheel,docker"); reflexivity.
  - apply (password_on_console false "alice:Secret1:Smith:Alice:wheel,docker"
             "alice" "Secret1" "Smith" "Alice" "wheel,docker"); reflexivity.
Defined.

(** ** Dry run and live run *)




(** ** The mode *)

(** C6: [main] prompts, reads one line from the terminal, the text up to the
    first line end of its content and nothing after it, and only then takes
    lines from standard input; the mode is dry-run exactly when that line,
    stripped of white space, is [Y] or [y], and this one mode governs the
    whole loop over the input.  The answers [YES], [N] and the empty one
    select the live mode. *)
Theorem mode_selection (answer rest stdin : string) (eol : ascii) :
  count_char Py.LF answer = 0 ->
  count_char Py.CR answer = 0 ->
  eol = Py.LF \/ eol = Py.CR ->
  Py.readline (answer ++ String eol rest) = answer ++ Py.nl /\
  Py.readline answer = answer /\
  (forall dev, dev = answer ++ String eol rest \/ dev = answer ->
     exists dry_run : bool,
       (dry_run = true <-> Py.strip answer = "Y" \/ Py.strip answer = "y") /\
       main (Some dev) stdin =
         (Printed "Run in dry-run mode? (Y/N): " EmptyString
          :: TtyReadline (Py.readline dev)
          :: trace (process dry_run (Py.file_lines stdin)),
          outcome (process dry_run (Py.file_lines stdin))) /\
       tty_reads (trace (main (Some dev) stdin)) = 1) /\
  dry_run_of ("YES" ++ Py.nl) = false /\
  dry_run_of ("N" ++ Py.nl) = false /\
  dry_run_of EmptyString = false /\
  dry_run_of (" y " ++ Py.nl) = true.
Proof.
  intros Hlf Hcr Heol.
  pose proof (readline_line_end answer rest eol Hlf Hcr Heol) as Hline.
  pose proof (readline_no_line_end answer Hlf Hcr) as Heof.
  split; [exact Hline|]. split; [exact Heof|]. split; [|now repeat split].
  intros dev Hdev. exists (dry_run_of (Py.readline dev)). split; [|split].
  - rewrite dry_run_of_iff.
    destruct Hdev as [-> | ->]; [rewrite Hline, strip_line_feed | rewrite Heof];
      reflexivity.
  - apply main_ok.
  - rewrite main_ok. cbn [trace fst tty_reads].
    now rewrite tty_reads_process.
Qed.

Lemma mode_selection_witness :
  Py.readline (" y " ++ String Py.CR ("N" ++ Py.nl)) = " y " ++ Py.nl /\
  exists dry_run : bool,
    (dry_run = true <-> Py.strip " y " = "Y" \/ Py.strip " y " = "y") /\
    main (Some (" y " ++ String Py.CR ("N" ++ Py.nl))) "bob:pw:Lee:Bob:-" =
      (Printed "Run in dry-run mode? (Y/N): " EmptyString
       :: TtyReadline (Py.readline (" y " ++ String Py.CR ("N" ++ Py.nl)))
       :: trace (process dry_run (Py.file_lines "bob:pw:Lee:Bob:-")),
       outcome (process dry_run (Py.file_lines "bob:pw:Lee:Bob:-"))) /\
    tty_reads
      (trace (main (Some (" y " ++ String Py.CR ("N" ++ Py.nl)))
                   "bob:pw:Lee:Bob:-")) = 1.
Proof.
  destruct (mode_selection " y " ("N" ++ Py.nl) "bob:pw:Lee:Bob:-" Py.CR)
    as (Hline & _ & Hmain & _).
  - reflexivity.
  - reflexivity.
  - now right.
  - split; [exact Hline|]. apply Hmain. now left.
Defined.

Example no_terminal (stdin : string) : main None stdin = ([], inl OSError).
Proof. reflexivity. Qed.

Example scenario_E :
  main (Some ("N" ++ Py.nl)) EmptyString =
  ([Printed "Run in dry-run mode? (Y/N): " EmptyString; TtyReadline ("N" ++ Py.nl)],
   inr tt).
Proof. reflexivity. Qed.

(** * Further properties of the script *)

(** ** The shape of a record *)

(** X1: the body comes to a command for a line, described in a dry run or
    handed to [os.system] in a live run, exactly when the line does not
    start with [#] and its stripped text holds exactly four colons; one more
    colon, in a password for instance, makes the line malformed. *)
Theorem record_iff_four_colons (dry_run : bool) (line : string) :
  commands dry_run (trace (body dry_run line)) <> [] <->
  Py.re_match_hash line = false /\ count_char ":" (Py.strip line) = 4.
Proof.
  split.
  - intros Hex.
    destruct (line_shape_total line) as [Hm | Hm Hl | u p l f g Hm Hf].
    + destruct (commands_skipped dry_run line (or_introl Hm)) as [Hd He].
      contradiction Hex. now destruct dry_run.
    + destruct (commands_skipped dry_run line (or_intror Hl)) as [Hd He].
      contradiction Hex. now destruct dry_run.
    + split; [exact Hm|].
      pose proof (split_length ":" (Py.strip line)) as Hlen.
      rewrite Hf in Hlen. simpl in Hlen. lia.
  - intros [Hm Hc].
    pose proof (split_length ":" (Py.strip line)) as Hlen. rewrite Hc in Hlen.
    destruct (Py.split ":" (Py.strip line))
      as [|u [|p [|l [|f [|g [|x fs]]]]]] eqn:Hf; try discriminate Hlen.
    rewrite (commands_valid dry_run line u p l f g Hm Hf).
    destruct dry_run; [discriminate|]. cbn [upto_raise].
    now destruct (has_nul _).
Qed.

(** X2: the five fields of a valid record hold no colon and, joined with
    colons, give back the stripped line; the entries of the group list hold
    no comma and, joined with commas, give back the fifth field. *)
Theorem record_fields_rejoin (line u p l f g : string) :
  Py.split ":" (Py.strip line) = [u; p; l; f; g] ->
  u ++ ":" ++ p ++ ":" ++ l ++ ":" ++ f ++ ":" ++ g = Py.strip line /\
  (forall x, In x [u; p; l; f; g] -> count_char ":" x = 0) /\
  join "," (Py.split "," g) = g /\
  (forall group, In group (Py.split "," g) -> count_char "," group = 0).
Proof.
  intros Hf. split; [|split; [|split]].
  - rewrite <- (split_join ":" (Py.strip line)), Hf. reflexivity.
  - intros x Hx. apply (split_no_sep ":" (Py.strip line)). now rewrite Hf.
  - apply split_join.
  - intros group. apply split_no_sep.
Qed.

Lemma record_fields_rejoin_witness :
  "alice:Secret1:Smith:Alice:wheel,docker"
  = Py.strip ("alice:Secret1:Smith:Alice:wheel,docker" ++ Py.nl) /\
  join "," (Py.split "," "wheel,docker") = "wheel,docker".
Proof.
  destruct (record_fields_rejoin
              ("alice:Secret1:Smith:Alice:wheel,docker" ++ Py.nl)
              "alice" "Secret1" "Smith" "Alice" "wheel,docker")
    as (H1 & _ & H3 & _).
  - reflexivity.
  - split; [exact H1 | exact H3].
Defined.

(** ** The end of a line *)

(** X3: a line feed at the end of a line changes nothing: a last line of the
    input that lacks it is processed like one that has it, with the same
    fields and the same text echoed in a diagnostic. *)
Theorem line_feed_irrelevant (dry_run : bool) (line : string) :
  body dry_run (line ++ Py.nl) = body dry_run line /\
  Py.split ":" (Py.strip (line ++ Py.nl)) = Py.split ":" (Py.strip line) /\
  Py.rstrip Py.nl (line ++ Py.nl) = Py.rstrip Py.nl line.
Proof.
  split; [apply body_line_feed|].
  split; [now rewrite strip_line_feed | apply rstrip_line_feed].
Qed.

(** ** Records written out *)

Lemma re_match_hash_app (u rest : string) :
  Py.re_match_hash (u ++ ":" ++ rest) = Py.re_match_hash u.
Proof. now destruct u. Qed.

(** X4: five fields without a colon, the first not starting with [#],
    written on a line with colons between them and no white space at the
    ends of the line, are read back as these fields: in a dry run, and in a
    live run of the line that ends normally, the commands of the line are
    the three templates filled with them. *)
Theorem written_record_read_back (dry_run : bool) (u p l f g : string) :
  let line := u ++ ":" ++ p ++ ":" ++ l ++ ":" ++ f ++ ":" ++ g in
  (forall x, In x [u; p; l; f; g] -> count_char ":" x = 0) ->
  Py.re_match_hash u = false ->
  Py.strip line = line ->
  outcome (body dry_run (line ++ Py.nl)) = inr tt ->
  Py.split ":" (Py.strip (line ++ Py.nl)) = [u; p; l; f; g] /\
  commands dry_run (trace (body dry_run (line ++ Py.nl))) =
    ("/usr/sbin/useradd -m -c '" ++ f ++ " " ++ l ++ ",,,' " ++ u)
    :: ("/bin/echo -ne '" ++ p ++ Py.nl ++ p
        ++ "' | /usr/bin/sudo /usr/bin/passwd " ++ u)
    :: map (fun group => "/usr/sbin/adduser " ++ u ++ " " ++ group)
           (filter not_dash (Py.split "," g)).
Proof.
  intros line Hall Hu Hs Ho.
  assert (Hf : Py.split ":" (Py.strip line) = [u; p; l; f; g]).
  { rewrite Hs. change line with (join ":" [u; p; l; f; g]).
    apply join_split; [discriminate | exact Hall]. }
  split; [now rewrite strip_line_feed|].
  rewrite body_line_feed in Ho |- *.
  apply commands_valid_value; [|exact Hf | exact Ho].
  unfold line. now rewrite re_match_hash_app.
Qed.

Lemma written_record_read_back_witness :
  commands true (trace (body true ("dave:x y:O'Neil:Dave:-,sudo" ++ Py.nl))) =
    [ "/usr/sbin/useradd -m -c 'Dave O'Neil,,,' dave";
      "/bin/echo -ne 'x y" ++ Py.nl
        ++ "x y' | /usr/bin/sudo /usr/bin/passwd dave";
      "/usr/sbin/adduser dave sudo" ].
Proof.
  apply (written_record_read_back true "dave" "x y" "O'Neil" "Dave" "-,sudo").
  - intros x Hx. simpl in Hx.
    repeat (destruct Hx as [<-|Hx]; [reflexivity|]). destruct Hx.
  - reflexivity.
  - reflexivity.
  - reflexivity.
Defined.

(** ** What is read from standard input *)



(** ** Commands are printed before they run *)

(** X7: in every run, each call of [os.system] comes right after a [print]
    of the very command it is given: no command runs without being shown. *)
Theorem commands_shown_before_run (tty : option string) (stdin : string) :
  echoed_from None (trace (main tty stdin)) = true.
Proof.
  destruct tty as [dev|]; [|reflexivity].
  rewrite main_ok. cbn [trace fst echoed_from].
  apply echoed_process.
Qed.

(** ** Lines do not depend on each other *)



(** ** A dry run reports every line *)

(** X9: in a dry run no line passes in silence: the body prints at least
    one message for every line, a SKIP, an ERROR or the announcement of the
    account.  In a live run a line prints something only if it is a
    record. *)
Theorem dry_run_reports_every_line (line : string) :
  (exists s rest, trace (body true line) = Printed s Py.nl :: rest) /\
  (trace (body false line) <> [] <->
   Py.re_match_hash line = false /\
   List.length (Py.split ":" (Py.strip line)) = 5).
Proof.
  destruct (line_shape_total line) as [Hm | Hm Hl | u p l f g Hm Hf].
  - rewrite (body_comment true line Hm), (body_comment false line Hm).
    split; [cbn; eauto|]. rewrite Hm. split; [now intros H | now intros [H _]].
  - rewrite (body_malformed true line Hm Hl), (body_malformed false line Hm Hl).
    split; [cbn; eauto|]. split; [now intros H | now intros [_ H]].
  - rewrite (body_valid true line u p l f g Hm Hf),
      (body_valid false line u p l f g Hm Hf), Hf.
    unfold steps. cbn [run_steps].
    split; [cbn [trace fst]; eauto|]. split; [now split|]. intros _.
    now destruct (has_nul _).
Qed.

(** ** A raising command ends the run *)

Lemma clean_app (t1 t2 : list event) :
  clean (t1 ++ t2) = clean t1 && clean t2.
Proof. unfold clean. now rewrite executed_app, forallb_app. Qed.

Lemma stops_at_raise_app (t1 t2 : list event) :
  clean t1 = true -> stops_at_raise (t1 ++ t2) = stops_at_raise t2.
Proof.
  induction t1 as [|e t1 IH]; [reflexivity|].
  destruct e; cbn [app stops_at_raise]; try exact IH.
  unfold clean. cbn [executed forallb]. intros H.
  apply andb_true_iff in H as [Hc Ht].
  apply negb_true_iff in Hc. rewrite Hc. now apply IH.
Qed.

Lemma run_steps_stops (dr : bool) (ss : list (string * string)) :
  stops_at_raise (trace (run_steps dr ss)) = true /\
  (outcome (run_steps dr ss) = inr tt -> clean (trace (run_steps dr ss)) = true).
Proof.
  induction ss as [|[a c] ss [IHs IHc]]; [now split|].
  cbn [run_steps]. destruct dr; [now split|].
  destruct (has_nul c) eqn:Hc.
  - cbn [trace fst outcome snd stops_at_raise]. rewrite Hc.
    split; [reflexivity | discriminate].
  - cbn [trace fst outcome snd stops_at_raise]. rewrite Hc.
    split; [exact IHs|]. intros H. unfold clean. cbn [executed forallb].
    rewrite Hc. exact (IHc H).
Qed.

Lemma body_stops (dr : bool) (line : string) :
  stops_at_raise (trace (body dr line)) = true /\
  (outcome (body dr line) = inr tt -> clean (trace (body dr line)) = true).
Proof.
  destruct (line_shape_total line) as [Hm | Hm Hl | u p l f g Hm Hf].
  - rewrite (body_comment dr line Hm). now destruct dr.
  - rewrite (body_malformed dr line Hm Hl). now destruct dr.
  - rewrite (body_valid dr line u p l f g Hm Hf). apply run_steps_stops.
Qed.

Lemma process_stops (dr : bool) (lines : list string) :
  stops_at_raise (trace (process dr lines)) = true /\
  (outcome (process dr lines) = inr tt ->
   clean (trace (process dr lines)) = true).
Proof.
  induction lines as [|line lines [IHs IHc]]; [now split|].
  destruct (body_stops dr line) as [Hs Hc].
  destruct (outcome (body dr line)) as [e|[]] eqn:Ho.
  - rewrite (process_cons_raised dr line lines e Ho).
    cbn [trace fst outcome snd stops_at_raise].
    split; [exact Hs | discriminate].
  - rewrite (process_cons_value dr line lines Ho).
    cbn [trace fst outcome snd stops_at_raise].
    rewrite (stops_at_raise_app _ _ (Hc eq_refl)).
    split; [exact IHs|]. intros H.
    change (clean (StdinNext line :: ?t)) with (clean t).
    now rewrite clean_app, (Hc eq_refl), (IHc H).
Qed.

(** X10: a command that holds U+0000 ends the run where it is handed to
    [os.system]: that call is the last event of the run, nothing is
    printed, read or executed after it; and a run that ends normally has
    handed no such command to [os.system]. *)
Theorem raising_command_ends_run (tty : option string) (stdin : string) :
  stops_at_raise (trace (main tty stdin)) = true /\
  (outcome (main tty stdin) = inr tt ->
   forall cmd, In cmd (executed (trace (main tty stdin))) ->
               has_nul cmd = false).
Proof.
  destruct tty as [dev|]; [|split; [reflexivity | discriminate]].
  rewrite main_ok. cbn [trace fst outcome snd stops_at_raise executed].
  destruct (process_stops (dry_run_of (Py.readline dev)) (Py.file_lines stdin))
    as [Hs Hc].
  split; [exact Hs|]. intros Ho cmd Hin.
  specialize (Hc Ho). unfold clean in Hc.
  rewrite forallb_forall in Hc. apply negb_true_iff. now apply Hc.
Qed.

Lemma raising_command_ends_run_witness :
  stops_at_raise (trace (main (Some ("N" ++ Py.nl)) nul_record)) = true /\
  forall cmd,
    In cmd (executed (trace (main (Some ("N" ++ Py.nl)) "bob:pw:Lee:Bob:-"))) ->
    has_nul cmd = false.
Proof.
  split.
  - apply (raising_command_ends_run (Some ("N" ++ Py.nl)) nul_record).
  - apply (raising_command_ends_run (Some ("N" ++ Py.nl)) "bob:pw:Lee:Bob:-").
    reflexivity.
Defined.
